(** * 8-week8/0-classifier-introduction.ipynb: the two locally defined functions

    The notebook defines two functions of its own, [classify_price] (cell 1)
    and [pprint_preds] (cell 5).  Everything else is calls into scikit-learn.
    This file embeds the two functions, and the comprehension of cell 1 that
    calls the first, over a small model of the Python and NumPy values,
    comparisons, truth tests and effects they use, and proves the
    properties the specification states about them. *)

From Stdlib Require Import ZArith QArith String Ascii List Sorted Lia.
From stdpp Require Import base option gmap strings.

Open Scope string_scope.
Set Warnings "-register-all".

(** ** Python values and the built-in operations the notebook calls *)

Module Py.

(** A Python [float].  The finite doubles are dyadic rationals; every
    comparison on them is exact, so a finite float is carried by its
    rational value.  The three special values are kept apart. *)
Inductive pyfloat : Type :=
  | FNan
  | FInf (neg : bool)
  | FFin (q : Q).

(** The values that reach the two functions.

    [VNone], [VBool], [VInt], [VFloat], [VComplex], [VStr] and [VList] are
    the built-in [None], [bool], [int], [float], [complex], [str] and
    [list].  A NumPy scalar of a real type ([float64], [int64], [bool_])
    stands as the built-in number of its value, which it compares like.

    [VArray x xs] is a one-dimensional NumPy array of real numbers with the
    items [x :: xs], each carried by its exact value ([True] as 1, [False]
    as 0): the regressor's [predictions] and the result of [arr < 80] are
    such arrays.  It is not a list: it compares item by item and its truth
    value is defined for a single item only.  Empty arrays, whose truth
    value depends on the NumPy version, and NumPy's complex scalars are not
    among the values. *)
Inductive value : Type :=
  | VNone
  | VBool (b : bool)
  | VInt (n : Z)
  | VFloat (x : pyfloat)
  | VComplex (re im : pyfloat)
  | VStr (s : string)
  | VList (l : list value)
  | VArray (x : pyfloat) (xs : list pyfloat).

Inductive exn : Type :=
  | TypeError
  | NameError
  | ValueError.

(** A call either returns or raises. *)
Inductive outcome (A : Type) : Type :=
  | Return (a : A)
  | Raise (e : exn).
Arguments Return {A} a.
Arguments Raise {A} e.

(** *** Exact numeric reading of the real number types *)

Definition of_Z (n : Z) : pyfloat := FFin (inject_Z n).

(** [bool] is a subclass of [int]: [True] is 1 and [False] is 0. *)
Definition as_real (v : value) : option pyfloat :=
  match v with
  | VBool b => Some (of_Z (Z.b2z b))
  | VInt n => Some (of_Z n)
  | VFloat x => Some x
  | _ => None
  end.

Definition is_real (v : value) : bool :=
  match as_real v with Some _ => true | None => false end.

(** The order of the extended rationals; NaN is related to nothing. *)
Definition xlt (x y : pyfloat) : Prop :=
  match x, y with
  | FNan, _ | _, FNan => False
  | _, FInf true => False
  | FInf true, _ => True
  | FInf false, _ => False
  | FFin _, FInf false => True
  | FFin a, FFin b => (a < b)%Q
  end.

Definition xle (x y : pyfloat) : Prop :=
  match x, y with
  | FNan, _ | _, FNan => False
  | FInf true, _ => True
  | _, FInf true => False
  | _, FInf false => True
  | FInf false, FFin _ => False
  | FFin a, FFin b => (a <= b)%Q
  end.

(** The mathematical reading of [a < b] and [a <= b] between two values:
    both are real numbers and their exact values are so ordered. *)
Definition real_lt (a b : value) : Prop :=
  match as_real a, as_real b with
  | Some x, Some y => xlt x y
  | _, _ => False
  end.

Definition real_le (a b : value) : Prop :=
  match as_real a, as_real b with
  | Some x, Some y => xle x y
  | _, _ => False
  end.

(** *** The operator [v < k] for an [int] literal [k] *)

Definition Qltb (a b : Q) : bool := negb (Qle_bool b a).

(** [float.__lt__] against an int: NaN compares false, the infinities by
    their sign, a finite double by its exact value. *)
Definition float_lt_int (x : pyfloat) (k : Z) : bool :=
  match x with
  | FNan => false
  | FInf neg => neg
  | FFin q => Qltb q (inject_Z k)
  end.

Definition b2f (b : bool) : pyfloat := of_Z (Z.b2z b).

(** The operator itself.  On a real number it answers with a bool.
    [None], [complex], [str] and [list] do not order against an [int]: the
    operator raises [TypeError].  On an array it compares item by item and
    answers with the array of the answers. *)
Definition lt_int (v : value) (k : Z) : outcome value :=
  match v with
  | VBool b => Return (VBool (Z.b2z b <? k)%Z)
  | VInt n => Return (VBool (n <? k)%Z)
  | VFloat x => Return (VBool (float_lt_int x k))
  | VNone | VComplex _ _ | VStr _ | VList _ => Raise TypeError
  | VArray x xs =>
      Return (VArray (b2f (float_lt_int x k))
                     (map (fun y => b2f (float_lt_int y k)) xs))
  end.

(** *** The truth test of [if] *)

(** A float is true unless it is zero; NaN and the infinities are true. *)
Definition nonzero (x : pyfloat) : bool :=
  match x with
  | FNan | FInf _ => true
  | FFin q => negb (Qeq_bool q 0)
  end.

(** [bool(c)], as [if c:] calls it.  An array of one item has the truth
    value of that item; for an array of more items NumPy raises
    [ValueError] (the truth value is ambiguous). *)
Definition truth (c : value) : outcome bool :=
  match c with
  | VNone => Return false
  | VBool b => Return b
  | VInt n => Return (negb (n =? 0)%Z)
  | VFloat x => Return (nonzero x)
  | VComplex re im => Return (nonzero re || nonzero im)
  | VStr s => Return (negb (String.eqb s ""))
  | VList l => Return (match l with [] => false | _ :: _ => true end)
  | VArray x [] => Return (nonzero x)
  | VArray _ (_ :: _) => Raise ValueError
  end.

(** The condition [v < k] of an [if]: the comparison, then the truth test
    of its answer. *)
Definition test_lt (v : value) (k : Z) : outcome bool :=
  match lt_int v k with
  | Return c => truth c
  | Raise e => Raise e
  end.

(** *** [str.join] *)

(** Iterating a value: a list yields its items, a string its characters,
    an array its items as scalars; the other values are not iterable. *)
Fixpoint chars (s : string) : list value :=
  match s with
  | EmptyString => []
  | String c s' => VStr (String c EmptyString) :: chars s'
  end.

Definition iterate (v : value) : outcome (list value) :=
  match v with
  | VList l => Return l
  | VStr s => Return (chars s)
  | VArray x xs => Return (VFloat x :: map VFloat xs)
  | _ => Raise TypeError
  end.

(** Every item must be a [str]. *)
Fixpoint str_items (l : list value) : outcome (list string) :=
  match l with
  | [] => Return []
  | VStr s :: l' =>
      match str_items l' with
      | Return ss => Return (s :: ss)
      | Raise e => Raise e
      end
  | _ :: _ => Raise TypeError
  end.

Fixpoint concat_sep (sep : string) (ss : list string) : string :=
  match ss with
  | [] => ""
  | [s] => s
  | s :: ss' => s ++ sep ++ concat_sep sep ss'
  end.

Definition join (sep : string) (v : value) : outcome string :=
  match iterate v with
  | Raise e => Raise e
  | Return l =>
      match str_items l with
      | Raise e => Raise e
      | Return ss => Return (concat_sep sep ss)
      end
  end.

(** *** Program state and the monad of calls *)

(** The module's global variables and what has been written to standard
    output. *)
Record state : Type := mkState {
  globals : gmap string value;
  stdout : string
}.

Definition M (A : Type) : Type := state -> outcome A * state.

Definition ret {A} (a : A) : M A := fun s => (Return a, s).

Definition raise {A} (e : exn) : M A := fun s => (Raise e, s).

Definition bind {A B} (m : M A) (k : A -> M B) : M B :=
  fun s =>
    match m s with
    | (Return a, s') => k a s'
    | (Raise e, s') => (Raise e, s')
    end.

Definition lift {A} (o : outcome A) : M A := fun s => (o, s).

Definition nl : string := String (ascii_of_nat 10) EmptyString.

(** [print(text)] appends the text and a newline to standard output. *)
Definition print (text : string) : M unit :=
  fun s => (Return tt, mkState (globals s) (stdout s ++ text ++ nl)).

(** Reading a global name; an unbound name raises [NameError]. *)
Definition load_global (x : string) : M value :=
  fun s =>
    match globals s !! x with
    | Some v => (Return v, s)
    | None => (Raise NameError, s)
    end.

(** Binding a global name, as an assignment at module level does. *)
Definition store_global (x : string) (v : value) : M unit :=
  fun s => (Return tt, mkState (<[x := v]> (globals s)) (stdout s)).

End Py.

Import Py.

Notation "'let*' x ':=' m 'in' k" := (bind m (fun x => k))
  (at level 10, x name, m at level 200, k at level 200,
   format "'[v' 'let*'  x  ':='  m  'in' '/' k ']'").

(** ** The notebook's functions *)

(** Cell 1:
<<
def classify_price(price):
    if price < 80:
        return "low"
    elif price < 140:
        return "medium"
    else:
        return "high"
>> *)
Definition classify_price (price : value) : M value :=
  let* c := lift (lt_int price 80) in
  let* b := lift (truth c) in
  if b then ret (VStr "low")
  else
    let* c' := lift (lt_int price 140) in
    let* b' := lift (truth c') in
    if b' then ret (VStr "medium")
    else ret (VStr "high").

Section Notebook.

(** [textwrap.fill], of the standard library, with its default width: a
    function from the text to the wrapped text. *)
Variable fill : string -> string.

(** Cell 5:
<<
def pprint_preds(p):
    print("Iris Predictions")
    print("----------------")
    print(textwrap.fill(",".join(predictions)))
>> *)
Definition pprint_preds (p : value) : M unit :=
  let* _ := print "Iris Predictions" in
  let* _ := print "----------------" in
  let* predictions := load_global "predictions" in
  let* joined := lift (join "," predictions) in
  print (fill joined).

End Notebook.

(** The helper as the specification words it: it joins and wraps the
    sequence it is given.  Used only to compare with [pprint_preds]. *)
Definition pprint_preds_as_specified (fill : string -> string) (p : value) : M unit :=
  let* _ := print "Iris Predictions" in
  let* _ := print "----------------" in
  let* joined := lift (join "," p) in
  print (fill joined).

(** The two lines [pprint_preds] prints first. *)
Definition header : string :=
  "Iris Predictions" ++ nl ++ "----------------" ++ nl.

(** The three labels, in their order. *)
Definition labels : list string := ["low"; "medium"; "high"].

Definition label_rank (l : string) : option nat :=
  if String.eqb l "low" then Some 0%nat
  else if String.eqb l "medium" then Some 1%nat
  else if String.eqb l "high" then Some 2%nat
  else None.

(** The state of the notebook when cell 5 runs: cell 1 has bound
    [predictions] to the regressor's output, an array of floats. *)
Definition notebook_globals : gmap string value :=
  {[ "predictions" := VArray (of_Z 60) [of_Z 120] ]}.

Definition notebook_state : state := mkState notebook_globals "".

(** Cell 1, the body of the comprehension
<<
[classify_price(p) for p in predictions]
>>
    run over the items in order; the first call that raises ends it. *)
Fixpoint classify_each (items : list value) : M (list value) :=
  match items with
  | [] => ret []
  | p :: rest =>
      let* r := classify_price p in
      let* rs := classify_each rest in
      ret (r :: rs)
  end.

(** Cell 1:
<<
classified_predictions = [classify_price(p) for p in predictions]
>> *)
Definition classify_predictions : M unit :=
  let* predictions := load_global "predictions" in
  let* items := lift (iterate predictions) in
  let* rs := classify_each items in
  store_global "classified_predictions" (VList rs).



(** The number a value is compared as: a real number, or the single item
    of a one-item array. *)
Definition scalar_value (v : value) : option pyfloat :=
  match v with
  | VArray x [] => Some x
  | _ => as_real v
  end.

(** The exception a value makes the condition [v < k] end with: the
    comparison's [TypeError] on what does not order against an [int], the
    truth test's [ValueError] on an array of two or more items. *)
Definition failure (v : value) : option exn :=
  match v with
  | VNone | VComplex _ _ | VStr _ | VList _ => Some TypeError
  | VArray _ (_ :: _) => Some ValueError
  | VBool _ | VInt _ | VFloat _ | VArray _ [] => None
  end.

(** The rank of a returned label. *)
Definition value_rank (v : value) : option nat :=
  match v with VStr l => label_rank l | _ => None end.

Definition rank_le (a b : value) : Prop :=
  exists r1 r2 : nat,
    value_rank a = Some r1 /\ value_rank b = Some r2 /\ (r1 <= r2)%nat.

(** ** Facts about the comparison *)

Lemma Qltb_lt (a b : Q) : Qltb a b = true <-> (a < b)%Q.
Proof.
  unfold Qltb. rewrite negb_true_iff. split.
  - intros H. apply Qnot_le_lt. intros Hle.
    apply Qle_bool_iff in Hle. congruence.
  - intros H. destruct (Qle_bool b a) eqn:E; [|reflexivity].
    apply Qle_bool_iff in E. exfalso. exact (Qlt_not_le _ _ H E).
Qed.

Lemma Qltb_inject_Z (a b : Z) : Qltb (inject_Z a) (inject_Z b) = (a <? b)%Z.
Proof.
  apply eq_true_iff_eq. rewrite Qltb_lt, Z.ltb_lt, Zlt_Qlt. tauto.
Qed.

Lemma float_lt_int_xlt (x : pyfloat) (k : Z) :
  float_lt_int x k = true <-> xlt x (of_Z k).
Proof.
  destruct x as [|[]|q]; simpl; try apply Qltb_lt; split; (discriminate || tauto).
Qed.

(** On a real number the condition evaluates to a bool, the exact
    comparison of the values. *)
Lemma test_lt_real (v : value) (x : pyfloat) (k : Z) :
  as_real v = Some x -> test_lt v k = Return (float_lt_int x k).
Proof.
  unfold test_lt.
  destruct v; simpl; intros H; inversion H; subst; simpl;
    try rewrite Qltb_inject_Z; reflexivity.
Qed.

Lemma test_lt_true (v : value) (k : Z) :
  real_lt v (VInt k) -> test_lt v k = Return true.
Proof.
  unfold real_lt. destruct (as_real v) as [x|] eqn:E; [|tauto].
  simpl. intros H. rewrite (test_lt_real _ _ _ E). f_equal.
  now apply float_lt_int_xlt.
Qed.

Lemma xlt_xle_absurd (x y : pyfloat) : xlt x y -> xle y x -> False.
Proof.
  destruct x as [|[]|a], y as [|[]|b]; simpl; try tauto.
  intros H1 H2. exact (Qlt_not_le _ _ H1 H2).
Qed.

Lemma xle_xlt_trans (x y z : pyfloat) : xle x y -> xlt y z -> xlt x z.
Proof.
  destruct x as [|[]|a], y as [|[]|b], z as [|[]|c]; simpl; try tauto.
  apply Qle_lt_trans.
Qed.

Lemma test_lt_false (v : value) (k : Z) :
  real_le (VInt k) v -> test_lt v k = Return false.
Proof.
  unfold real_le. simpl. destruct (as_real v) as [x|] eqn:E; [|tauto].
  intros H. rewrite (test_lt_real _ _ _ E). f_equal.
  destruct (float_lt_int x k) eqn:F; [|reflexivity].
  apply float_lt_int_xlt in F. exfalso. exact (xlt_xle_absurd _ _ F H).
Qed.

Lemma append_assoc (a b c : string) : (a ++ b) ++ c = a ++ b ++ c.
Proof.
  induction a as [|ch a IH]; [reflexivity|].
  change (String ch ((a ++ b) ++ c) = String ch (a ++ b ++ c)).
  now rewrite IH.
Qed.

(** The call, by the answers of its two comparisons. *)
Lemma classify_price_eval (price : value) (s : state) :
  classify_price price s =
    match test_lt price 80 with
    | Raise e => (Raise e, s)
    | Return true => (Return (VStr "low"), s)
    | Return false =>
        match test_lt price 140 with
        | Raise e => (Raise e, s)
        | Return true => (Return (VStr "medium"), s)
        | Return false => (Return (VStr "high"), s)
        end
    end.
Proof.
  unfold classify_price, bind, lift, ret, test_lt.
  destruct (lt_int price 80) as [c|]; [|reflexivity].
  destruct (truth c) as [[]|]; try reflexivity.
  destruct (lt_int price 140) as [c'|]; [|reflexivity].
  destruct (truth c') as [[]|]; reflexivity.
Qed.

(** The condition raises on the same values, whatever the literal. *)
Lemma test_lt_raise_any (v : value) (k k' : Z) (e : exn) :
  test_lt v k = Raise e -> test_lt v k' = Raise e.
Proof.
  unfold test_lt. destruct v as [| | | | | | |x [|y ys]]; simpl; intros H;
    (discriminate || exact H).
Qed.

Lemma is_real_as_real (v : value) :
  is_real v = true -> exists x, as_real v = Some x.
Proof.
  unfold is_real. destruct (as_real v) as [x|]; [eauto | discriminate].
Qed.

(** ** The threshold function *)

(** C1. For every numeric input strictly less than 80, [classify_price]
    returns the string "low" (and leaves the state as it was). *)
Theorem classify_price_low (price : value) (s : state) :
  real_lt price (VInt 80) ->
  classify_price price s = (Return (VStr "low"), s).
Proof.
  intros H. rewrite classify_price_eval, (test_lt_true _ _ H). reflexivity.
Qed.

Lemma classify_price_low_witness :
  real_lt (VFloat (of_Z 60)) (VInt 80) /\
  classify_price (VFloat (of_Z 60)) notebook_state
    = (Return (VStr "low"), notebook_state).
Proof.
  assert (H : real_lt (VFloat (of_Z 60)) (VInt 80)) by reflexivity.
  split; [exact H | exact (classify_price_low _ _ H)].
Defined.

(** C2. For every numeric input [price] with 80 <= price < 140,
    [classify_price] returns "medium"; in particular the boundary input 80
    is classified "medium". *)
Theorem classify_price_medium (price : value) (s : state) :
  real_le (VInt 80) price ->
  real_lt price (VInt 140) ->
  classify_price price s = (Return (VStr "medium"), s) /\
  classify_price (VInt 80) s = (Return (VStr "medium"), s).
Proof.
  intros Hge Hlt. split; [|reflexivity].
  rewrite classify_price_eval, (test_lt_false _ _ Hge), (test_lt_true _ _ Hlt).
  reflexivity.
Qed.

Lemma classify_price_medium_witness :
  real_le (VInt 80) (VFloat (of_Z 120)) /\
  real_lt (VFloat (of_Z 120)) (VInt 140) /\
  classify_price (VFloat (of_Z 120)) notebook_state
    = (Return (VStr "medium"), notebook_state).
Proof.
  assert (H1 : real_le (VInt 80) (VFloat (of_Z 120))) by (simpl; discriminate).
  assert (H2 : real_lt (VFloat (of_Z 120)) (VInt 140)) by reflexivity.
  split; [exact H1 | split; [exact H2 |]].
  exact (proj1 (classify_price_medium _ _ H1 H2)).
Defined.

(** C3. For every numeric input [price] with price >= 140,
    [classify_price] returns "high"; in particular the boundary input 140
    is classified "high". *)
Theorem classify_price_high (price : value) (s : state) :
  real_le (VInt 140) price ->
  classify_price price s = (Return (VStr "high"), s) /\
  classify_price (VInt 140) s = (Return (VStr "high"), s).
Proof.
  intros Hge. split; [|reflexivity].
  assert (Hge80 : real_le (VInt 80) price).
  { revert Hge. unfold real_le. simpl.
    destruct (as_real price) as [[|[]|q]|]; simpl; try tauto.
    apply Qle_trans. discriminate. }
  rewrite classify_price_eval, (test_lt_false _ _ Hge80), (test_lt_false _ _ Hge).
  reflexivity.
Qed.

Lemma classify_price_high_witness :
  real_le (VInt 140) (VFloat (FInf false)) /\
  classify_price (VFloat (FInf false)) notebook_state
    = (Return (VStr "high"), notebook_state).
Proof.
  assert (H : real_le (VInt 140) (VFloat (FInf false))) by exact I.
  split; [exact H | exact (proj1 (classify_price_high _ _ H))].
Defined.

(** The branch taken returns label [l], and no other label. *)
Ltac the_label l U :=
  exists l; split;
  [ split; [simpl; tauto | reflexivity]
  | let l' := fresh "l'" in
    let E := fresh "E" in
    intros l' [_ E]; now apply U ].

(** C4. [classify_price] is total on the numeric scalars: for every real
    number (an int, a bool or a float, NaN and the infinities included) it
    returns exactly one of the three labels "low", "medium", "high". *)
Theorem classify_price_total (price : value) (s : state) :
  is_real price = true ->
  exists! l : string,
    In l labels /\ classify_price price s = (Return (VStr l), s).
Proof.
  intros Hr. destruct (is_real_as_real _ Hr) as [x Hx].
  rewrite classify_price_eval, !(test_lt_real _ _ _ Hx).
  assert (U : forall l l' : string,
             (Return (VStr l), s) = (Return (VStr l'), s) -> l = l')
    by (intros l l' E; now inversion E).
  destruct (float_lt_int x 80); [|destruct (float_lt_int x 140)];
    [the_label "low" U | the_label "medium" U | the_label "high" U].
Qed.

Lemma classify_price_total_witness :
  is_real (VFloat FNan) = true /\
  exists! l : string,
    In l labels /\
    classify_price (VFloat FNan) notebook_state = (Return (VStr l), notebook_state).
Proof.
  assert (H : is_real (VFloat FNan) = true) by reflexivity.
  split; [exact H | exact (classify_price_total _ _ H)].
Defined.

(** C7, as the code has it.  [classify_price] has no validation and no
    error branch of its own: on every numeric input it returns normally;
    on any input it raises exactly when its first condition [price < 80]
    does, and the exception is the one raised there by the comparison or
    by the truth test of the comparison's answer. *)
Theorem classify_price_never_raises (price : value) (s : state) :
  is_real price = true ->
  (exists r : value, classify_price price s = (Return r, s)) /\
  (forall (w : value) (e : exn),
      classify_price w s = (Raise e, s) <->
      lt_int w 80 = Raise e \/
      exists c : value, lt_int w 80 = Return c /\ truth c = Raise e).
Proof.
  intros Hr. split.
  - destruct (is_real_as_real _ Hr) as [x Hx].
    rewrite classify_price_eval, !(test_lt_real _ _ _ Hx).
    destruct (float_lt_int x 80); [|destruct (float_lt_int x 140)]; eauto.
  - intros w e.
    assert (Ht : test_lt w 80 = Raise e <->
                 lt_int w 80 = Raise e \/
                 exists c : value, lt_int w 80 = Return c /\ truth c = Raise e).
    { unfold test_lt. destruct (lt_int w 80) as [c|e'].
      - split.
        + intros H. right. exists c. split; [reflexivity | exact H].
        + intros [H|(c' & H & H')]; [discriminate|].
          inversion H; subst c'. exact H'.
      - split.
        + intros H. left. congruence.
        + intros [H|(c' & H & _)]; [congruence | discriminate]. }
    rewrite <- Ht, classify_price_eval. clear Ht.
    destruct (test_lt w 80) as [[]|e80] eqn:E80.
    + split; discriminate.
    + destruct (test_lt w 140) as [[]|e140] eqn:E140;
        try (split; discriminate).
      apply (test_lt_raise_any _ _ 80%Z) in E140. congruence.
    + split; congruence.
Qed.

Lemma classify_price_never_raises_witness :
  is_real (VBool true) = true /\
  exists r : value,
    classify_price (VBool true) notebook_state = (Return r, notebook_state).
Proof.
  assert (H : is_real (VBool true) = true) by reflexivity.
  split; [exact H | exact (proj1 (classify_price_never_raises _ _ H))].
Defined.

(** C7, as the claim words it, fails on the notebook's own [predictions]
    array: both comparisons return (an array of answers) and the call
    still raises, [ValueError], from the truth test of [if]. *)
Lemma classify_price_array_raises_in_truth_test :
  let arr := VArray (of_Z 60) [of_Z 120] in
  classify_price arr notebook_state = (Raise ValueError, notebook_state) /\
  lt_int arr 80 = Return (VArray (b2f true) [b2f false]) /\
  lt_int arr 140 = Return (VArray (b2f true) [b2f true]) /\
  ~ (lt_int arr 80 = Raise ValueError \/ lt_int arr 140 = Raise ValueError).
Proof.
  repeat split; try reflexivity. intros [H|H]; discriminate.
Qed.

(** C8. [classify_price] is deterministic: its result depends on the
    argument alone, not on the state in which it is evaluated. *)
Theorem classify_price_deterministic (price : value) (s1 s2 : state) :
  fst (classify_price price s1) = fst (classify_price price s2).
Proof.
  rewrite !classify_price_eval.
  destruct (test_lt price 80) as [[]|]; try reflexivity.
  destruct (test_lt price 140) as [[]|]; reflexivity.
Qed.

(** C9. [classify_price] is monotone: for numeric inputs p1 <= p2 the label
    of p1 precedes or equals the label of p2 in the order
    "low" < "medium" < "high". *)
Theorem classify_price_monotone (p1 p2 : value) (s : state) :
  real_le p1 p2 ->
  exists (l1 l2 : string) (r1 r2 : nat),
    classify_price p1 s = (Return (VStr l1), s) /\
    classify_price p2 s = (Return (VStr l2), s) /\
    label_rank l1 = Some r1 /\
    label_rank l2 = Some r2 /\
    (r1 <= r2)%nat.
Proof.
  unfold real_le.
  destruct (as_real p1) as [x1|] eqn:E1; [|tauto].
  destruct (as_real p2) as [x2|] eqn:E2; [|tauto].
  intros Hle.
  assert (Hk : forall k : Z,
             float_lt_int x2 k = true -> float_lt_int x1 k = true).
  { intros k H. apply float_lt_int_xlt. apply float_lt_int_xlt in H.
    exact (xle_xlt_trans _ _ _ Hle H). }
  rewrite !classify_price_eval, !(test_lt_real _ _ _ E1), !(test_lt_real _ _ _ E2).
  pose proof (Hk 80%Z) as H80. pose proof (Hk 140%Z) as H140.
  destruct (float_lt_int x2 80).
  - rewrite (H80 eq_refl).
    exists "low", "low", 0%nat, 0%nat. repeat split; lia.
  - destruct (float_lt_int x2 140).
    + rewrite (H140 eq_refl). destruct (float_lt_int x1 80).
      * exists "low", "medium", 0%nat, 1%nat. repeat split; lia.
      * exists "medium", "medium", 1%nat, 1%nat. repeat split; lia.
    + destruct (float_lt_int x1 80); [|destruct (float_lt_int x1 140)].
      * exists "low", "high", 0%nat, 2%nat. repeat split; lia.
      * exists "medium", "high", 1%nat, 2%nat. repeat split; lia.
      * exists "high", "high", 2%nat, 2%nat. repeat split; lia.
Qed.

Lemma classify_price_monotone_witness :
  real_le (VInt 79) (VFloat (FFin (281 # 2))) /\
  exists (l1 l2 : string) (r1 r2 : nat),
    classify_price (VInt 79) notebook_state = (Return (VStr l1), notebook_state) /\
    classify_price (VFloat (FFin (281 # 2))) notebook_state
      = (Return (VStr l2), notebook_state) /\
    label_rank l1 = Some r1 /\
    label_rank l2 = Some r2 /\
    (r1 <= r2)%nat.
Proof.
  assert (H : real_le (VInt 79) (VFloat (FFin (281 # 2))))
    by (simpl; discriminate).
  split; [exact H | exact (classify_price_monotone _ _ _ H)].
Defined.

(** ** The formatting helper *)

Section Helper.

Variable fill : string -> string.

(** What a call of [pprint_preds] does, by the binding of the global
    [predictions]. *)
Lemma pprint_preds_eval (p : value) (s : state) :
  pprint_preds fill p s =
    match globals s !! "predictions" with
    | None => (Raise NameError, mkState (globals s) (stdout s ++ header))
    | Some v =>
        match join "," v with
        | Raise e => (Raise e, mkState (globals s) (stdout s ++ header))
        | Return t =>
            (Return tt,
             mkState (globals s) (stdout s ++ header ++ fill t ++ nl))
        end
    end.
Proof.
  unfold pprint_preds, bind, print, load_global, lift, header.
  cbn [globals stdout].
  destruct (globals s !! "predictions") as [v|];
    [destruct (join "," v)|]; cbn [globals stdout];
    now rewrite !append_assoc.
Qed.

(** C5, at the notebook's own state.  The body joins the global
    [predictions] (the regressor's floats), not its argument: called on a
    sequence of strings it prints the two header lines and raises
    [TypeError], where the helper as specified prints the comma-join of the
    argument. *)
Theorem pprint_preds_joins_global_not_argument :
  let p := VList [VStr "setosa"; VStr "virginica"] in
  pprint_preds fill p notebook_state
    = (Raise TypeError, mkState notebook_globals header) /\
  pprint_preds_as_specified fill p notebook_state
    = (Return tt,
       mkState notebook_globals (header ++ fill "setosa,virginica" ++ nl)).
Proof. split; reflexivity. Qed.

(** C6. Neither function changes program state: [classify_price] leaves the
    whole state as it was, and [pprint_preds] changes no global variable
    (it only appends to standard output). *)
Theorem functions_change_no_state (price p : value) (s : state) :
  snd (classify_price price s) = s /\
  globals (snd (pprint_preds fill p s)) = globals s.
Proof.
  split.
  - rewrite classify_price_eval.
    destruct (test_lt price 80) as [[]|]; try reflexivity.
    destruct (test_lt price 140) as [[]|]; reflexivity.
  - rewrite pprint_preds_eval. simpl.
    destruct (globals s !! "predictions") as [v|]; [|reflexivity].
    destruct (join "," v); reflexivity.
Qed.

(** C10. The printed output of [pprint_preds] does not depend on its
    parameter: with the global [predictions] held fixed, calls on any two
    arguments print the same text and end the same way. *)
Theorem pprint_preds_ignores_parameter (p1 p2 : value) (s1 s2 : state) :
  globals s1 !! "predictions" = globals s2 !! "predictions" ->
  exists out : string,
    stdout (snd (pprint_preds fill p1 s1)) = stdout s1 ++ out /\
    stdout (snd (pprint_preds fill p2 s2)) = stdout s2 ++ out /\
    fst (pprint_preds fill p1 s1) = fst (pprint_preds fill p2 s2).
Proof.
  intros Hg. rewrite !pprint_preds_eval, Hg.
  destruct (globals s2 !! "predictions") as [v|]; [|now exists header].
  destruct (join "," v) as [t|e]; [|now exists header].
  now exists (header ++ fill t ++ nl).
Qed.

End Helper.

Lemma pprint_preds_ignores_parameter_witness :
  let s1 := mkState {[ "predictions" := VList [VStr "x"; VStr "y"] ]} "" in
  let s2 := mkState (<[ "X" := VInt 1 ]> (globals s1)) "KNN" in
  let p1 := VList [VStr "setosa"] in
  let p2 := VList [VStr "virginica"; VStr "versicolor"] in
  globals s1 !! "predictions" = globals s2 !! "predictions" /\
  exists out : string,
    stdout (snd (pprint_preds (fun t => t) p1 s1)) = stdout s1 ++ out /\
    stdout (snd (pprint_preds (fun t => t) p2 s2)) = stdout s2 ++ out /\
    fst (pprint_preds (fun t => t) p1 s1) = fst (pprint_preds (fun t => t) p2 s2).
Proof.
  intros s1 s2 p1 p2.
  assert (Hg : globals s1 !! "predictions" = globals s2 !! "predictions")
    by reflexivity.
  split; [exact Hg |].
  exact (pprint_preds_ignores_parameter (fun t => t) p1 p2 s1 s2 Hg).
Defined.

(** ** Further properties of [classify_price] *)

Lemma xlt_or_not (x : pyfloat) (k : Z) :
  float_lt_int x k = false <-> xle (of_Z k) x \/ x = FNan.
Proof.
  destruct x as [|[]|q]; simpl.
  - split; [now right | reflexivity].
  - split; [discriminate | intros [[]|H]; discriminate].
  - split; [now left | reflexivity].
  - unfold Qltb. rewrite negb_false_iff, Qle_bool_iff.
    split; [now left | intros [H|H]; [exact H | discriminate]].
Qed.

Lemma classify_price_real (v : value) (x : pyfloat) (s : state) :
  as_real v = Some x ->
  classify_price v s =
    (Return (VStr (if float_lt_int x 80 then "low"
                   else if float_lt_int x 140 then "medium" else "high")), s).
Proof.
  intros Hx. rewrite classify_price_eval, !(test_lt_real _ _ _ Hx).
  destruct (float_lt_int x 80); [|destruct (float_lt_int x 140)]; reflexivity.
Qed.

Lemma nonzero_b2f (b : bool) : nonzero (b2f b) = b.
Proof. destruct b; reflexivity. Qed.

Lemma test_lt_scalar (v : value) (x : pyfloat) (k : Z) :
  scalar_value v = Some x -> test_lt v k = Return (float_lt_int x k).
Proof.
  destruct v as [| | | | | | |y [|z zs]]; simpl; intros H;
    try discriminate; try (apply test_lt_real; exact H).
  inversion H; subst. unfold test_lt. cbn [lt_int map truth].
  now rewrite nonzero_b2f.
Qed.

Lemma test_lt_failure (v : value) (e : exn) (k : Z) :
  failure v = Some e -> test_lt v k = Raise e.
Proof.
  destruct v as [| | | | | | |y [|z zs]]; simpl; intros H;
    try discriminate; inversion H; reflexivity.
Qed.

Lemma scalar_or_failure (v : value) :
  (exists x : pyfloat, scalar_value v = Some x /\ failure v = None) \/
  (exists e : exn, failure v = Some e /\ scalar_value v = None).
Proof.
  destruct v as [| | | | | | |y [|z zs]]; simpl; eauto.
Qed.

Lemma is_real_no_failure (v : value) : is_real v = true -> failure v = None.
Proof. destruct v; simpl; intros H; (discriminate || reflexivity). Qed.

Lemma classify_price_scalar (v : value) (x : pyfloat) (s : state) :
  scalar_value v = Some x ->
  classify_price v s =
    (Return (VStr (if float_lt_int x 80 then "low"
                   else if float_lt_int x 140 then "medium" else "high")), s).
Proof.
  intros Hx. rewrite classify_price_eval, !(test_lt_scalar _ _ _ Hx).
  destruct (float_lt_int x 80); [|destruct (float_lt_int x 140)]; reflexivity.
Qed.

Lemma classify_price_failure (v : value) (e : exn) (s : state) :
  failure v = Some e -> classify_price v s = (Raise e, s).
Proof.
  intros H. now rewrite classify_price_eval, (test_lt_failure _ _ _ H).
Qed.

(** [classify_price] returns "low" exactly on what compares as a number
    below 80: a real number, or an array whose single item is one. *)
Theorem classify_price_low_iff (price : value) (s : state) :
  classify_price price s = (Return (VStr "low"), s) <->
  exists x : pyfloat, scalar_value price = Some x /\ xlt x (of_Z 80).
Proof.
  destruct (scalar_or_failure price) as [(x & Hx & _)|(e & He & Hn)].
  - rewrite (classify_price_scalar _ _ _ Hx). split.
    + destruct (float_lt_int x 80) eqn:F80.
      * intros _. exists x. split; [exact Hx | now apply float_lt_int_xlt].
      * destruct (float_lt_int x 140); discriminate.
    + intros (y & Hy & Hlt). rewrite Hx in Hy. inversion Hy; subst y.
      apply float_lt_int_xlt in Hlt. now rewrite Hlt.
  - rewrite (classify_price_failure _ _ _ He), Hn.
    split; [discriminate | intros (y & Hy & _); discriminate].
Qed.

(** [classify_price] returns "medium" exactly on what compares as a number
    of [80, 140). *)
Theorem classify_price_medium_iff (price : value) (s : state) :
  classify_price price s = (Return (VStr "medium"), s) <->
  exists x : pyfloat,
    scalar_value price = Some x /\ xle (of_Z 80) x /\ xlt x (of_Z 140).
Proof.
  destruct (scalar_or_failure price) as [(x & Hx & _)|(e & He & Hn)].
  - rewrite (classify_price_scalar _ _ _ Hx). split.
    + destruct (float_lt_int x 80) eqn:F80; [discriminate|].
      destruct (float_lt_int x 140) eqn:F140; [|discriminate].
      intros _. exists x. apply float_lt_int_xlt in F140.
      split; [exact Hx|]. split; [|exact F140].
      apply xlt_or_not in F80. destruct F80 as [H|H]; [exact H|].
      subst x. destruct F140.
    + intros (y & Hy & Hge & Hlt). rewrite Hx in Hy. inversion Hy; subst y.
      apply float_lt_int_xlt in Hlt. rewrite Hlt.
      assert (F80 : float_lt_int x 80 = false)
        by (apply xlt_or_not; now left).
      now rewrite F80.
  - rewrite (classify_price_failure _ _ _ He), Hn.
    split; [discriminate | intros (y & Hy & _); discriminate].
Qed.

(** [classify_price] returns "high" exactly on what compares as a number
    from 140 up or as NaN, which no comparison holds of. *)
Theorem classify_price_high_iff (price : value) (s : state) :
  classify_price price s = (Return (VStr "high"), s) <->
  exists x : pyfloat,
    scalar_value price = Some x /\ (xle (of_Z 140) x \/ x = FNan).
Proof.
  destruct (scalar_or_failure price) as [(x & Hx & _)|(e & He & Hn)].
  - rewrite (classify_price_scalar _ _ _ Hx). split.
    + destruct (float_lt_int x 80) eqn:F80; [discriminate|].
      destruct (float_lt_int x 140) eqn:F140; [discriminate|].
      intros _. exists x. split; [exact Hx | now apply xlt_or_not].
    + intros (y & Hy & H). rewrite Hx in Hy. inversion Hy; subst y.
      assert (F140 : float_lt_int x 140 = false) by now apply xlt_or_not.
      assert (F80 : float_lt_int x 80 = false).
      { destruct (float_lt_int x 80) eqn:F; [|reflexivity].
        assert (F' : float_lt_int x 140 = true); [|congruence].
        apply float_lt_int_xlt. apply float_lt_int_xlt in F.
        destruct x as [|[]|q]; simpl in *; try tauto.
        eapply Qlt_trans; [exact F | reflexivity]. }
      now rewrite F80, F140.
  - rewrite (classify_price_failure _ _ _ He), Hn.
    split; [discriminate | intros (y & Hy & _); discriminate].
Qed.

(** [classify_price] raises exactly on two kinds of input, with the state
    unchanged: [TypeError], from the comparison, on [None], a complex
    number, a string or a list; [ValueError], from the truth test, on an
    array of two or more items. *)
Theorem classify_price_raises_iff (price : value) (e : exn) (s : state) :
  classify_price price s = (Raise e, s) <-> failure price = Some e.
Proof.
  split; [|apply classify_price_failure].
  destruct (scalar_or_failure price) as [(x & Hx & _)|(e' & He & _)].
  - rewrite (classify_price_scalar _ _ _ Hx). discriminate.
  - rewrite (classify_price_failure _ _ _ He). congruence.
Qed.

(** The label depends on the numeric value only, not on the type that
    carries it: an int, a bool and a float of equal value are classified
    alike. *)
Theorem classify_price_same_value (a b : value) (s : state) :
  real_le a b -> real_le b a ->
  classify_price a s = classify_price b s.
Proof.
  unfold real_le.
  destruct (as_real a) as [x|] eqn:Ea; [|tauto].
  destruct (as_real b) as [y|] eqn:Eb; [|tauto].
  intros Hxy Hyx.
  assert (Hk : forall k : Z, float_lt_int x k = float_lt_int y k).
  { intros k. apply eq_true_iff_eq. rewrite !float_lt_int_xlt.
    split; apply xle_xlt_trans; assumption. }
  rewrite (classify_price_real _ _ _ Ea), (classify_price_real _ _ _ Eb), !Hk.
  reflexivity.
Qed.

Lemma classify_price_same_value_witness :
  real_le (VInt 80) (VFloat (FFin (160 # 2))) /\
  real_le (VFloat (FFin (160 # 2))) (VInt 80) /\
  classify_price (VInt 80) notebook_state
    = classify_price (VFloat (FFin (160 # 2))) notebook_state.
Proof.
  assert (H1 : real_le (VInt 80) (VFloat (FFin (160 # 2))))
    by (simpl; discriminate).
  assert (H2 : real_le (VFloat (FFin (160 # 2))) (VInt 80))
    by (simpl; discriminate).
  split; [exact H1 | split; [exact H2 |]].
  exact (classify_price_same_value _ _ _ H1 H2).
Defined.

(** ** The comprehension of cell 1 *)

Lemma classify_each_cons (p : value) (rest : list value) (s : state) :
  classify_each (p :: rest) s =
    match classify_price p s with
    | (Return r, s1) =>
        match classify_each rest s1 with
        | (Return rs, s2) => (Return (r :: rs), s2)
        | (Raise e, s2) => (Raise e, s2)
        end
    | (Raise e, s1) => (Raise e, s1)
    end.
Proof.
  simpl. unfold bind at 1.
  destruct (classify_price p s) as [[r|e] s1]; [|reflexivity].
  unfold bind. destruct (classify_each rest s1) as [[rs|e] s2]; reflexivity.
Qed.

Lemma classify_price_outcome (p : value) (s : state) :
  (exists l : string,
      In l labels /\ failure p = None /\
      classify_price p s = (Return (VStr l), s)) \/
  (exists e : exn, failure p = Some e /\ classify_price p s = (Raise e, s)).
Proof.
  destruct (scalar_or_failure p) as [(x & Hx & Hn)|(e & He & _)].
  - left. rewrite (classify_price_scalar _ _ _ Hx).
    destruct (float_lt_int x 80); [|destruct (float_lt_int x 140)];
      eexists; (split; [|split; [exact Hn | reflexivity]]); simpl; tauto.
  - right. exists e. split; [exact He | now apply classify_price_failure].
Qed.

(** The comprehension never touches the state. *)
Lemma classify_each_state (ps : list value) (s : state) :
  snd (classify_each ps s) = s.
Proof.
  induction ps as [|p ps IH]; [reflexivity|].
  rewrite classify_each_cons.
  destruct (classify_price_outcome p s) as [(l & _ & _ & ->)|(e & _ & ->)];
    [|reflexivity].
  specialize IH. destruct (classify_each ps s) as [[rs|e] s2]; exact IH.
Qed.

Lemma classify_each_pointwise (ps : list value) (s : state) :
  Forall (fun p => is_real p = true) ps ->
  exists rs : list value,
    classify_each ps s = (Return rs, s) /\
    Forall2 (fun p r => classify_price p s = (Return r, s)) ps rs.
Proof.
  induction 1 as [|p ps Hp _ IH].
  - exists []. split; [reflexivity | constructor].
  - destruct IH as (rs & Hrs & Hall).
    destruct (classify_price_outcome p s) as [(l & _ & _ & Hl)|(e & Hf & _)];
      [|rewrite (is_real_no_failure _ Hp) in Hf; discriminate].
    exists (VStr l :: rs). rewrite classify_each_cons, Hl, Hrs.
    split; [reflexivity | now constructor].
Qed.

(** Over a sequence of real numbers the comprehension returns a list of the
    same length whose items are, position by position, what
    [classify_price] returns on the items of the input. *)
Theorem classify_each_reals (ps : list value) (s : state) :
  Forall (fun p => is_real p = true) ps ->
  exists rs : list value,
    classify_each ps s = (Return rs, s) /\
    length rs = length ps /\
    Forall2 (fun p r => classify_price p s = (Return r, s)) ps rs.
Proof.
  intros H. destruct (classify_each_pointwise ps s H) as (rs & Hrs & Hall).
  exists rs. repeat split; [exact Hrs | | exact Hall].
  symmetry. clear Hrs H. induction Hall; simpl; congruence.
Qed.

Lemma classify_each_reals_witness :
  let ps := [VFloat (of_Z 60); VInt 120; VBool true; VFloat FNan] in
  Forall (fun p => is_real p = true) ps /\
  exists rs : list value,
    classify_each ps notebook_state = (Return rs, notebook_state) /\
    length rs = length ps /\
    Forall2 (fun p r => classify_price p notebook_state
                        = (Return r, notebook_state)) ps rs.
Proof.
  intros ps.
  assert (H : Forall (fun p => is_real p = true) ps)
    by (repeat constructor).
  split; [exact H | exact (classify_each_reals ps notebook_state H)].
Defined.

(** Whatever the input, a list the comprehension returns has the length of
    its input, holds nothing but the three labels, and the state is as
    before. *)
Theorem classify_each_labels (ps rs : list value) (s s' : state) :
  classify_each ps s = (Return rs, s') ->
  s' = s /\
  length rs = length ps /\
  Forall (fun r => exists l : string, r = VStr l /\ In l labels) rs.
Proof.
  intros H. pose proof (classify_each_state ps s) as Hs.
  rewrite H in Hs. simpl in Hs. subst s'. split; [reflexivity|].
  revert rs H. induction ps as [|p ps IH]; intros rs H.
  - inversion H. split; [reflexivity | constructor].
  - rewrite classify_each_cons in H.
    destruct (classify_price_outcome p s) as [(l & Hl & _ & E)|(e & _ & E)];
      rewrite E in H; [|discriminate].
    pose proof (classify_each_state ps s) as Hs.
    destruct (classify_each ps s) as [[rs'|e] s2]; [|discriminate].
    simpl in Hs. subst s2. inversion H; subst rs.
    destruct (IH rs' eq_refl) as [Hlen Hall].
    split; [simpl; now rewrite Hlen|]. constructor; [eauto | exact Hall].
Qed.

Lemma classify_each_labels_witness :
  let ps := [VInt 10; VFloat (FInf false)] in
  let rs := [VStr "low"; VStr "high"] in
  classify_each ps notebook_state = (Return rs, notebook_state) /\
  notebook_state = notebook_state /\
  length rs = length ps /\
  Forall (fun r => exists l : string, r = VStr l /\ In l labels) rs.
Proof.
  intros ps rs.
  assert (H : classify_each ps notebook_state = (Return rs, notebook_state))
    by reflexivity.
  split; [exact H | exact (classify_each_labels ps rs _ _ H)].
Defined.

(** The comprehension stops at the first item on which [classify_price]
    raises ([None], a complex number, a string, a list, an array of two or
    more items): it ends with that item's exception, whatever follows, and
    the state is as before. *)
Theorem classify_each_first_bad
    (good rest : list value) (bad : value) (e : exn) (s : state) :
  Forall (fun p => failure p = None) good ->
  failure bad = Some e ->
  classify_each (good ++ bad :: rest) s = (Raise e, s).
Proof.
  intros Hgood Hbad. induction Hgood as [|p good Hp _ IH].
  - simpl app. rewrite classify_each_cons.
    now rewrite (classify_price_failure _ _ _ Hbad).
  - change ((p :: good) ++ bad :: rest)%list with (p :: (good ++ bad :: rest))%list.
    rewrite classify_each_cons.
    destruct (classify_price_outcome p s) as [(l & _ & _ & E)|(e' & Hf & _)];
      [|congruence].
    now rewrite E, IH.
Qed.

Lemma classify_each_first_bad_witness :
  let good := [VInt 10; VArray (of_Z 100) []] in
  let bad := VArray (of_Z 60) [of_Z 120] in
  Forall (fun p => failure p = None) good /\
  failure bad = Some ValueError /\
  classify_each (good ++ bad :: [VStr "90"]) notebook_state
    = (Raise ValueError, notebook_state).
Proof.
  intros good bad.
  assert (H1 : Forall (fun p => failure p = None) good) by (repeat constructor).
  assert (H2 : failure bad = Some ValueError) by reflexivity.
  split; [exact H1 | split; [exact H2 |]].
  exact (classify_each_first_bad good [VStr "90"] bad ValueError notebook_state H1 H2).
Defined.

Lemma classify_price_rank_le (a b : value) (s : state) :
  real_le a b ->
  exists ra rb : value,
    classify_price a s = (Return ra, s) /\
    classify_price b s = (Return rb, s) /\
    rank_le ra rb.
Proof.
  unfold real_le.
  destruct (as_real a) as [x|] eqn:Ea; [|tauto].
  destruct (as_real b) as [y|] eqn:Eb; [|tauto].
  intros Hle.
  assert (Hk : forall k : Z,
             float_lt_int y k = true -> float_lt_int x k = true).
  { intros k H. apply float_lt_int_xlt. apply float_lt_int_xlt in H.
    exact (xle_xlt_trans _ _ _ Hle H). }
  rewrite (classify_price_real _ _ _ Ea), (classify_price_real _ _ _ Eb).
  pose proof (Hk 80%Z) as H80. pose proof (Hk 140%Z) as H140.
  do 2 eexists. split; [reflexivity|]. split; [reflexivity|].
  unfold rank_le.
  destruct (float_lt_int y 80).
  - rewrite (H80 eq_refl). exists 0%nat, 0%nat. repeat split; lia.
  - destruct (float_lt_int y 140).
    + rewrite (H140 eq_refl).
      destruct (float_lt_int x 80); do 2 eexists;
        (split; [reflexivity|]); (split; [reflexivity|]); lia.
    + destruct (float_lt_int x 80); [|destruct (float_lt_int x 140)];
        do 2 eexists;
        (split; [reflexivity|]); (split; [reflexivity|]); lia.
Qed.

(** Order is kept: on an ascending sequence of real numbers the
    comprehension returns labels that never go down in the order
    "low" < "medium" < "high". *)
Theorem classify_each_sorted (ps : list value) (s : state) :
  Forall (fun p => is_real p = true) ps ->
  Sorted real_le ps ->
  exists rs : list value,
    classify_each ps s = (Return rs, s) /\ Sorted rank_le rs.
Proof.
  intros Hreal Hsorted.
  destruct (classify_each_pointwise ps s Hreal) as (rs & Hrs & Hall).
  exists rs. split; [exact Hrs|]. clear Hrs Hreal.
  induction Hall as [|p r ps rs Hpr Hall IH]; [constructor|].
  apply Sorted_inv in Hsorted. destruct Hsorted as [Htail Hhd].
  constructor; [exact (IH Htail)|].
  destruct Hall as [|q r' ps' rs' Hqr _]; [constructor|].
  apply HdRel_inv in Hhd.
  destruct (classify_price_rank_le p q s Hhd) as (ra & rb & Ha & Hb & Hle).
  constructor. congruence.
Qed.

Lemma classify_each_sorted_witness :
  let ps := [VFloat (FInf true); VInt 79; VInt 80; VFloat (FFin (279 # 2)); VInt 140] in
  Forall (fun p => is_real p = true) ps /\
  Sorted real_le ps /\
  exists rs : list value,
    classify_each ps notebook_state = (Return rs, notebook_state) /\
    Sorted rank_le rs.
Proof.
  intros ps.
  assert (H1 : Forall (fun p => is_real p = true) ps) by (repeat constructor).
  assert (H2 : Sorted real_le ps)
    by (repeat constructor; simpl; discriminate).
  split; [exact H1 | split; [exact H2 |]].
  exact (classify_each_sorted ps notebook_state H1 H2).
Defined.

(** ** The assignment of cell 1 *)

Lemma classify_predictions_eval (s : state) :
  classify_predictions s =
    match globals s !! "predictions" with
    | None => (Raise NameError, s)
    | Some v =>
        match iterate v with
        | Raise e => (Raise e, s)
        | Return items =>
            match fst (classify_each items s) with
            | Raise e => (Raise e, s)
            | Return rs =>
                (Return tt,
                 mkState (<["classified_predictions" := VList rs]> (globals s))
                         (stdout s))
            end
        end
    end.
Proof.
  unfold classify_predictions, bind at 1, load_global.
  destruct (globals s !! "predictions") as [v|]; [|reflexivity].
  unfold bind at 1, lift. destruct (iterate v) as [items|e]; [|reflexivity].
  unfold bind, store_global. pose proof (classify_each_state items s) as Hs.
  destruct (classify_each items s) as [[rs|e] s1]; simpl in Hs; subst s1;
    reflexivity.
Qed.

(** The assignment either binds [classified_predictions] and changes
    nothing else, or raises and changes nothing at all: a failed run of
    the comprehension leaves no partial result behind. *)
Theorem classify_predictions_all_or_nothing (s : state) :
  (exists rs : list value,
      classify_predictions s =
        (Return tt,
         mkState (<["classified_predictions" := VList rs]> (globals s))
                 (stdout s))) \/
  (exists e : exn, classify_predictions s = (Raise e, s)).
Proof.
  rewrite classify_predictions_eval.
  destruct (globals s !! "predictions") as [v|]; [|right; eauto].
  destruct (iterate v) as [items|e]; [|right; eauto].
  destruct (fst (classify_each items s)) as [rs|e]; [left | right]; eauto.
Qed.

(** With [predictions] bound to a sequence of real numbers (a list, or the
    regressor's array), the assignment binds [classified_predictions] to
    the list of their labels, position by position; [predictions] and every
    other name keep their values and nothing is printed. *)
Theorem classify_predictions_binds (v : value) (ps : list value) (s : state) :
  globals s !! "predictions" = Some v ->
  iterate v = Return ps ->
  Forall (fun p => is_real p = true) ps ->
  exists (rs : list value) (s' : state),
    classify_predictions s = (Return tt, s') /\
    globals s' !! "classified_predictions" = Some (VList rs) /\
    Forall2 (fun p r => classify_price p s = (Return r, s)) ps rs /\
    (forall x : string,
        x <> "classified_predictions" -> globals s' !! x = globals s !! x) /\
    stdout s' = stdout s.
Proof.
  intros Hg Hit Hreal.
  destruct (classify_each_pointwise ps s Hreal) as (rs & Hrs & Hall).
  exists rs. eexists. rewrite classify_predictions_eval, Hg, Hit, Hrs.
  simpl fst. cbv iota.
  split; [reflexivity|]. simpl globals. simpl stdout.
  split; [apply lookup_insert_eq|].
  split; [exact Hall|]. split; [|reflexivity].
  intros x Hx. apply lookup_insert_ne. congruence.
Qed.

Lemma classify_predictions_binds_witness :
  let v := VArray (of_Z 60) [of_Z 120] in
  let ps := [VFloat (of_Z 60); VFloat (of_Z 120)] in
  globals notebook_state !! "predictions" = Some v /\
  iterate v = Return ps /\
  Forall (fun p => is_real p = true) ps /\
  exists (rs : list value) (s' : state),
    classify_predictions notebook_state = (Return tt, s') /\
    globals s' !! "classified_predictions" = Some (VList rs) /\
    Forall2 (fun p r => classify_price p notebook_state
                        = (Return r, notebook_state)) ps rs /\
    (forall x : string,
        x <> "classified_predictions" ->
        globals s' !! x = globals notebook_state !! x) /\
    stdout s' = stdout notebook_state.
Proof.
  intros v ps.
  assert (H1 : globals notebook_state !! "predictions" = Some v)
    by reflexivity.
  assert (H2 : iterate v = Return ps) by reflexivity.
  assert (H3 : Forall (fun p => is_real p = true) ps) by (repeat constructor).
  split; [exact H1 | split; [exact H2 | split; [exact H3 |]]].
  exact (classify_predictions_binds v ps notebook_state H1 H2 H3).
Defined.

(** ** Further properties of [pprint_preds] *)

Lemma str_items_map (ss : list string) : str_items (map VStr ss) = Return ss.
Proof. induction ss as [|t ss IH]; simpl; [reflexivity | now rewrite IH]. Qed.




Lemma join_real_items (sep : string) (v q : value) (ps : list value) :
  iterate v = Return (q :: ps) -> is_real q = true ->
  join sep v = Raise TypeError.
Proof.
  unfold join. intros -> Hq.
  destruct q; simpl in Hq; try discriminate; reflexivity.
Qed.

Section HelperBehaviour.

Variable fill : string -> string.

(** With no global [predictions] bound (cell 1 not run), [pprint_preds]
    prints its two header lines and then raises [NameError]. *)
Theorem pprint_preds_unbound (p : value) (s : state) :
  globals s !! "predictions" = None ->
  pprint_preds fill p s
    = (Raise NameError, mkState (globals s) (stdout s ++ header)).
Proof. intros H. now rewrite pprint_preds_eval, H. Qed.


(** With [predictions] bound to a list of strings, the call prints the
    header and then the wrapped comma-join of those strings, whatever its
    argument; for the empty list the body is the wrapping of the empty
    text. *)
Theorem pprint_preds_prints_global (p : value) (ss : list string) (s : state) :
  globals s !! "predictions" = Some (VList (map VStr ss)) ->
  pprint_preds fill p s
    = (Return tt,
       mkState (globals s)
               (stdout s ++ header ++ fill (concat_sep "," ss) ++ nl)).
Proof.
  intros H. rewrite pprint_preds_eval, H. unfold join. simpl iterate.
  cbv iota. now rewrite str_items_map.
Qed.

(** Earlier output is never lost and the header is always printed, also
    when the call goes on to raise. *)
Theorem pprint_preds_keeps_output (p : value) (s : state) :
  exists rest : string,
    stdout (snd (pprint_preds fill p s)) = stdout s ++ header ++ rest.
Proof.
  assert (E : forall t : string, t = t ++ "").
  { induction t as [|c t IH]; [reflexivity|].
    change (String c t = String c (t ++ "")). now rewrite <- IH. }
  rewrite pprint_preds_eval.
  destruct (globals s !! "predictions") as [v|];
    [destruct (join "," v) as [t|e]|]; simpl.
  - now exists (fill t ++ nl).
  - exists "". now rewrite <- E.
  - exists "". now rewrite <- E.
Qed.

(** Two calls in a row, as in cell 7: when the first returns, so does the
    second, and it prints the very same block again, whatever the two
    arguments. *)
Theorem pprint_preds_twice (p1 p2 : value) (s : state) :
  fst (pprint_preds fill p1 s) = Return tt ->
  exists out : string,
    pprint_preds fill p1 s
      = (Return tt, mkState (globals s) (stdout s ++ out)) /\
    (let* _ := pprint_preds fill p1 in pprint_preds fill p2) s
      = (Return tt, mkState (globals s) (stdout s ++ out ++ out)).
Proof.
  unfold bind. rewrite !pprint_preds_eval.
  destruct (globals s !! "predictions") as [v|] eqn:Hg; [|discriminate].
  destruct (join "," v) as [t|e] eqn:Hj; [|discriminate].
  intros _. exists (header ++ fill t ++ nl). split; [reflexivity|].
  rewrite pprint_preds_eval. simpl globals. rewrite Hg, Hj. simpl stdout.
  now rewrite !append_assoc.
Qed.

(** The notebook's own flow: once cell 1 has classified a non-empty
    sequence of real numbers, [predictions] still holds the numbers, so
    every later call of [pprint_preds] prints the header and raises
    [TypeError]. *)
Theorem classify_predictions_then_pprint
    (v q : value) (ps : list value) (p : value) (s : state) :
  globals s !! "predictions" = Some v ->
  iterate v = Return (q :: ps) ->
  Forall (fun x => is_real x = true) (q :: ps) ->
  exists s1 : state,
    classify_predictions s = (Return tt, s1) /\
    pprint_preds fill p s1
      = (Raise TypeError, mkState (globals s1) (stdout s ++ header)).
Proof.
  intros Hg Hit Hreal.
  destruct (classify_each_pointwise _ s Hreal) as (rs & Hrs & _).
  eexists. rewrite classify_predictions_eval, Hg, Hit, Hrs.
  simpl fst. cbv iota. split; [reflexivity|].
  rewrite pprint_preds_eval. simpl globals. simpl stdout.
  rewrite lookup_insert_ne by congruence. rewrite Hg.
  now rewrite (join_real_items "," v q ps Hit (Forall_inv Hreal)).
Qed.

End HelperBehaviour.

Lemma pprint_preds_unbound_witness :
  let s := mkState ∅ "Accuracy: 1.0" in
  globals s !! "predictions" = None /\
  pprint_preds (fun t => t) (VList [VStr "setosa"]) s
    = (Raise NameError, mkState (globals s) (stdout s ++ header)).
Proof.
  intros s.
  assert (H : globals s !! "predictions" = None) by reflexivity.
  split; [exact H | exact (pprint_preds_unbound (fun t => t) _ s H)].
Defined.

Lemma pprint_preds_prints_global_witness :
  let s := mkState {[ "predictions" := VList (map VStr ["low"; "medium"]) ]} "" in
  globals s !! "predictions" = Some (VList (map VStr ["low"; "medium"])) /\
  pprint_preds (fun t => t) VNone s
    = (Return tt,
       mkState (globals s)
               (stdout s ++ header
                  ++ (fun t => t) (concat_sep "," ["low"; "medium"]) ++ nl)).
Proof.
  intros s.
  assert (H : globals s !! "predictions"
              = Some (VList (map VStr ["low"; "medium"]))) by reflexivity.
  split; [exact H|].
  exact (pprint_preds_prints_global (fun t => t) VNone ["low"; "medium"] s H).
Defined.

Lemma pprint_preds_twice_witness :
  let s := mkState {[ "predictions" := VList [VStr "a"; VStr "b"] ]} "KNN" in
  let p1 := VList [VInt 0; VInt 1] in
  let p2 := VList [VInt 2; VInt 2] in
  fst (pprint_preds (fun t => t) p1 s) = Return tt /\
  exists out : string,
    pprint_preds (fun t => t) p1 s
      = (Return tt, mkState (globals s) (stdout s ++ out)) /\
    (let* _ := pprint_preds (fun t => t) p1 in pprint_preds (fun t => t) p2) s
      = (Return tt, mkState (globals s) (stdout s ++ out ++ out)).
Proof.
  intros s p1 p2.
  assert (H : fst (pprint_preds (fun t => t) p1 s) = Return tt) by reflexivity.
  split; [exact H | exact (pprint_preds_twice (fun t => t) p1 p2 s H)].
Defined.

Lemma classify_predictions_then_pprint_witness :
  let v := VArray (of_Z 60) [of_Z 120] in
  globals notebook_state !! "predictions" = Some v /\
  iterate v = Return [VFloat (of_Z 60); VFloat (of_Z 120)] /\
  Forall (fun x => is_real x = true) [VFloat (of_Z 60); VFloat (of_Z 120)] /\
  exists s1 : state,
    classify_predictions notebook_state = (Return tt, s1) /\
    pprint_preds (fun t => t) (VList [VStr "setosa"]) s1
      = (Raise TypeError,
         mkState (globals s1) (stdout notebook_state ++ header)).
Proof.
  intros v.
  assert (H1 : globals notebook_state !! "predictions" = Some v)
    by reflexivity.
  assert (H2 : iterate v = Return [VFloat (of_Z 60); VFloat (of_Z 120)])
    by reflexivity.
  assert (H3 : Forall (fun x => is_real x = true)
                 [VFloat (of_Z 60); VFloat (of_Z 120)])
    by (repeat constructor).
  split; [exact H1 | split; [exact H2 | split; [exact H3 |]]].
  exact (classify_predictions_then_pprint (fun t => t) v _ _
           (VList [VStr "setosa"]) notebook_state H1 H2 H3).
Defined.
